(** * elyse: the packaging script [setup.py] and the build pipeline it ships

    The repository's one source file is [setup.py].  Part I embeds that
    script: its import fallback, the read of [README.rst], and the single
    call of [setup] with its keyword arguments.  Part II models the build
    pipeline of the [elyse] script that [setup.py] installs. *)

From stdpp Require Import gmap strings list sorting.

Local Open Scope string_scope.

(** * Part I: [setup.py] *)

Module SetupPy.

(** ** Data *)

(** The two modules the script may take [setup] from. *)
Inductive SetupModule := Setuptools | DistutilsCore.

Global Instance SetupModule_eq_dec : EqDecision SetupModule.
Proof. solve_decision. Defined.

Definition module_name (m : SetupModule) : string :=
  match m with
  | Setuptools => "setuptools"
  | DistutilsCore => "distutils.core"
  end.

(** Exceptions the script can meet.  [ImportError] is the only class the
    [except] clause of lines 3-6 catches; [IOError] is what [open] raises on a
    missing file ([FileNotFoundError] on Python 3, a subclass of it);
    [OtherError] stands for anything else an import may raise. *)
Inductive PyExn :=
  | ImportError (modname : string)
  | IOError (filename : string)
  | OtherError (msg : string).

Global Instance PyExn_eq_dec : EqDecision PyExn.
Proof. solve_decision. Defined.

Definition is_ImportError (e : PyExn) : bool :=
  match e with ImportError _ => true | _ => false end.

(** The keyword arguments of the [setup(...)] call, lines 9-35. *)
Record SetupKwargs := {
  name : string;
  version : string;
  description : string;
  author : string;
  author_email : string;
  license : string;
  long_description : string;
  scripts : list string;
  install_requires : list string;
  classifiers : list string
}.

(** What the interpreter finds when the script runs.  The outcome of each of
    the two imports ([None]: the module imports).  The files of the working
    directory, each with what [open(f).read()] gives for it: the text ([inr],
    as the interpreter returns it, decoded and with its newlines translated on
    Python 3), or the exception the read raises ([inl], a UnicodeDecodeError
    on bytes that do not decode).  And what the imported [setup] does when it
    is called with given arguments, which is the library's business and
    depends on the command line, on [setup.cfg] and on the files it installs:
    it returns ([None]) or raises (SystemExit when no command is given). *)
Record Env := {
  import_setuptools : option PyExn;
  import_distutils_core : option PyExn;
  files : gmap string (PyExn + string);
  setup_result : SetupModule → SetupKwargs → option PyExn
}.

Definition import_outcome (env : Env) (m : SetupModule) : option PyExn :=
  match m with
  | Setuptools => import_setuptools env
  | DistutilsCore => import_distutils_core env
  end.

(** What the script does, in order. *)
Inductive Event :=
  | EvImport (m : SetupModule) (ok : bool)
  | EvOpen (filename : string) (ok : bool)
  | EvRead (filename : string)
  | EvSetup (m : SetupModule) (kw : SetupKwargs).

(** The observable state: the log of events and the metadata handed to
    [setup], if the call was reached. *)
Record World := {
  log : list Event;
  registered : option (SetupModule * SetupKwargs)
}.

Definition initial : World := {| log := []; registered := None |}.

(** ** A small monad for the script: environment, state, exceptions *)

Definition Py (A : Type) : Type := Env → World → World * (PyExn + A).

Global Instance Py_ret : MRet Py := λ A a _ w, (w, inr a).

Global Instance Py_bind : MBind Py := λ A B k c env w,
  match c env w with
  | (w', inl e) => (w', inl e)
  | (w', inr a) => k a env w'
  end.

Definition raise {A} (e : PyExn) : Py A := λ _ w, (w, inl e).

(** [try: c  except <class>: h]: the handler runs only for an exception of
    the class; the state changes made before the exception stay. *)
Definition try_except {A} (c : Py A) (catches : PyExn → bool) (h : Py A) : Py A :=
  λ env w,
    match c env w with
    | (w', inl e) => if catches e then h env w' else (w', inl e)
    | r => r
    end.

Definition emit (ev : Event) : Py unit :=
  λ _ w, ({| log := log w ++ [ev]; registered := registered w |}, inr tt).

(** ** The script *)

(** [from <m> import setup] *)
Definition import_setup_from (m : SetupModule) : Py SetupModule :=
  λ env w,
    match import_outcome env m with
    | None => (emit (EvImport m true) ;; mret m) env w
    | Some e => (emit (EvImport m false) ;; raise e) env w
    end.

(** Lines 3-6. *)
Definition import_setup : Py SetupModule :=
  try_except (import_setup_from Setuptools) is_ImportError
             (import_setup_from DistutilsCore).

(** [open(f).read()]: [open] raises on a missing file; on a file that is
    there, [read] returns its text or raises. *)
Definition open_read (f : string) : Py string :=
  λ env w,
    match files env !! f with
    | Some (inr text) => (emit (EvOpen f true) ;; emit (EvRead f) ;; mret text) env w
    | Some (inl e) => (emit (EvOpen f true) ;; raise e) env w
    | None => (emit (EvOpen f false) ;; raise (IOError f)) env w
    end.

(** The arguments of lines 10-34; only [long_description] is computed. *)
Definition setup_kwargs (readme : string) : SetupKwargs := {|
  name := "elyse";
  version := "0.1.0";
  description := "A simple static website generator.";
  author := "Frank Smit";
  author_email := "frank@61924.nl";
  license := "MIT";
  long_description := readme;
  scripts := ["elyse"];
  install_requires :=
    ["pyyaml"; "tornado"; "houdini.py"; "misaka"; "pygments"; "unidecode"];
  classifiers :=
    ["Development Status :: 4 - Beta";
     "Intended Audience :: Developers";
     "License :: OSI Approved :: MIT License";
     "Programming Language :: Python :: 2.7";
     "Programming Language :: Python :: 3.2";
     "Topic :: Text Processing";
     "Topic :: Utilities"]
|}.

(** The call itself: whichever [setup] was imported receives the arguments;
    what it then does, and whether it returns, is the library's. *)
Definition call_setup (m : SetupModule) (kw : SetupKwargs) : Py unit :=
  λ env w,
    ({| log := log w ++ [EvSetup m kw]; registered := Some (m, kw) |},
     match setup_result env m kw with
     | None => inr tt
     | Some e => inl e
     end).

(** The whole file.  Line 1, [import os], loads a module of the interpreter
    itself that the script never uses and is left out.  Python evaluates the
    keyword arguments, and so the read of [README.rst], before it calls
    [setup]. *)
Definition setup_py : Py unit :=
  m ← import_setup;
  readme ← open_read "README.rst";
  call_setup m (setup_kwargs readme).

Definition run (env : Env) : World * (PyExn + unit) := setup_py env initial.

(** ** The roles the specification gives the dependencies *)

Inductive Role :=
  | YamlParser
  | HtmlEscaper
  | MarkdownRenderer
  | SyntaxHighlighter
  | WebFramework
  | Transliterator.

Definition all_roles : list Role :=
  [YamlParser; HtmlEscaper; MarkdownRenderer; SyntaxHighlighter; WebFramework;
   Transliterator].

(** The package the specification names for each role. *)
Definition role_package (r : Role) : string :=
  match r with
  | YamlParser => "pyyaml"
  | HtmlEscaper => "houdini.py"
  | MarkdownRenderer => "misaka"
  | SyntaxHighlighter => "pygments"
  | WebFramework => "tornado"
  | Transliterator => "unidecode"
  end.

(** The phrase the specification quotes for the tool. *)
Definition spec_phrase : string := "a simple static website generator".

Definition ascii_lower (c : Ascii.ascii) : Ascii.ascii :=
  let n := Ascii.nat_of_ascii c in
  if bool_decide (65 ≤ n ≤ 90)%nat then Ascii.ascii_of_nat (n + 32)%nat else c.

Fixpoint string_lower (s : string) : string :=
  match s with
  | EmptyString => EmptyString
  | String c s' => String (ascii_lower c) (string_lower s')
  end.

(** ** Environments used as concrete inputs *)

Definition cwd_with_readme : gmap string (PyExn + string) :=
  {[ "README.rst" := inr "Elyse, a static website generator." ]}.

(** A [setup] that returns: a command was given and it ran. *)
Definition setup_returns : SetupModule → SetupKwargs → option PyExn :=
  λ _ _, None.

(** A [setup] called with no command on the command line. *)
Definition setup_no_command : SetupModule → SetupKwargs → option PyExn :=
  λ _ _, Some (OtherError "SystemExit: no commands supplied").

(** setuptools is installed. *)
Definition env_setuptools : Env := {|
  import_setuptools := None;
  import_distutils_core := None;
  files := cwd_with_readme;
  setup_result := setup_returns
|}.

(** setuptools is missing, the standard library has distutils. *)
Definition env_distutils : Env := {|
  import_setuptools := Some (ImportError (module_name Setuptools));
  import_distutils_core := None;
  files := cwd_with_readme;
  setup_result := setup_returns
|}.

(** Neither module imports (an interpreter without distutils and without
    setuptools), and there is no [README.rst]. *)
Definition env_no_setup : Env := {|
  import_setuptools := Some (ImportError (module_name Setuptools));
  import_distutils_core := Some (ImportError (module_name DistutilsCore));
  files := ∅;
  setup_result := setup_returns
|}.

(** setuptools imports, [README.rst] is missing. *)
Definition env_no_readme : Env := {|
  import_setuptools := None;
  import_distutils_core := None;
  files := ∅;
  setup_result := setup_returns
|}.

(** ** A run, in closed form *)

(** The module [import_setup] ends with, or the exception it lets through. *)
Definition chosen_module (env : Env) : PyExn + SetupModule :=
  match import_setuptools env with
  | None => inr Setuptools
  | Some e =>
      if is_ImportError e then
        match import_distutils_core env with
        | None => inr DistutilsCore
        | Some e' => inl e'
        end
      else inl e
  end.

(** The events of lines 3-6. *)
Definition import_events (env : Env) : list Event :=
  match import_setuptools env with
  | None => [EvImport Setuptools true]
  | Some e =>
      EvImport Setuptools false ::
      (if is_ImportError e then
         [EvImport DistutilsCore (bool_decide (import_distutils_core env = None))]
       else [])
  end.

Definition is_EvSetup (ev : Event) : bool :=
  match ev with EvSetup _ _ => true | _ => false end.

Definition is_EvOpen (ev : Event) : bool :=
  match ev with EvOpen _ _ => true | _ => false end.

(** Importing setuptools fails with something that is not an ImportError
    (a setuptools too old for the interpreter); distutils is there. *)
Definition env_broken_setuptools : Env := {|
  import_setuptools := Some (OtherError "SyntaxError");
  import_distutils_core := None;
  files := cwd_with_readme;
  setup_result := setup_returns
|}.

(** setuptools is missing and importing distutils.core fails too, while
    [README.rst] is there. *)
Definition env_broken_distutils : Env := {|
  import_setuptools := Some (ImportError (module_name Setuptools));
  import_distutils_core := Some (OtherError "AttributeError");
  files := cwd_with_readme;
  setup_result := setup_returns
|}.

(** setuptools is installed, [README.rst] is an empty file and no command
    is given. *)
Definition env_empty_readme : Env := {|
  import_setuptools := None;
  import_distutils_core := None;
  files := {[ "README.rst" := inr "" ]};
  setup_result := setup_no_command
|}.

(** setuptools is installed and [README.rst] holds bytes that do not
    decode. *)
Definition env_undecodable_readme : Env := {|
  import_setuptools := None;
  import_distutils_core := None;
  files := {[ "README.rst" := inl (OtherError "UnicodeDecodeError") ]};
  setup_result := setup_returns
|}.

(** The number of calls of [setup] in a run. *)
Definition setup_calls (w : World) : nat :=
  length (List.filter is_EvSetup (log w)).

Ltac py_unfold :=
  unfold mbind, Py_bind, mret, Py_ret, emit, raise, call_setup in *; simpl in *.

Lemma import_setup_spec env w :
  import_setup env w =
    ({| log := log w ++ import_events env; registered := registered w |},
     chosen_module env).
Proof.
  unfold import_setup, try_except, import_setup_from, chosen_module,
    import_events; py_unfold.
  destruct (import_setuptools env) as [e|]; py_unfold; [|done].
  destruct (is_ImportError e); py_unfold; [|done].
  destruct (import_distutils_core env); py_unfold; by rewrite <- app_assoc.
Qed.

Lemma run_spec env :
  run env =
    match chosen_module env with
    | inl e => ({| log := import_events env; registered := None |}, inl e)
    | inr m =>
        match files env !! "README.rst" with
        | None =>
            ({| log := import_events env ++ [EvOpen "README.rst" false];
                registered := None |},
             inl (IOError "README.rst"))
        | Some (inl e) =>
            ({| log := import_events env ++ [EvOpen "README.rst" true];
                registered := None |},
             inl e)
        | Some (inr readme) =>
            ({| log := import_events env ++
                       [EvOpen "README.rst" true; EvRead "README.rst";
                        EvSetup m (setup_kwargs readme)];
                registered := Some (m, setup_kwargs readme) |},
             match setup_result env m (setup_kwargs readme) with
             | None => inr tt
             | Some e => inl e
             end)
        end
    end.
Proof.
  unfold run, setup_py, mbind, Py_bind. rewrite import_setup_spec; simpl.
  destruct (chosen_module env) as [e|m]; [done|].
  unfold open_read. destruct (files env !! "README.rst") as [[e|readme]|];
    py_unfold; [done| |done].
  by rewrite <- !app_assoc.
Qed.

Lemma import_events_no_setup env :
  forallb (λ ev, negb (is_EvSetup ev) && negb (is_EvOpen ev)) (import_events env) = true.
Proof.
  unfold import_events. destruct (import_setuptools env) as [e|]; [|done].
  by destruct (is_ImportError e).
Qed.

Lemma import_events_only_imports env ev :
  ev ∈ import_events env → is_EvSetup ev = false ∧ is_EvOpen ev = false.
Proof.
  intros Hev. pose proof (import_events_no_setup env) as Hall.
  rewrite forallb_forall in Hall. apply list_elem_of_In, Hall in Hev.
  by destruct ev.
Qed.

Lemma import_events_distutils env ok :
  EvImport DistutilsCore ok ∈ import_events env →
  ∃ mn, import_setuptools env = Some (ImportError mn).
Proof.
  unfold import_events. destruct (import_setuptools env) as [e|].
  - destruct e as [mn| |]; simpl; [by eauto| |];
      rewrite list_elem_of_singleton; discriminate.
  - rewrite list_elem_of_singleton; discriminate.
Qed.

Lemma chosen_module_inr env m :
  chosen_module env = inr m →
  (m = Setuptools ↔ import_setuptools env = None)
  ∧ (m = DistutilsCore ↔
       (∃ mn, import_setuptools env = Some (ImportError mn))
       ∧ import_distutils_core env = None).
Proof.
  unfold chosen_module. destruct (import_setuptools env) as [e|].
  - destruct e as [mn| |]; simpl; try discriminate.
    destruct (import_distutils_core env); [discriminate|].
    intros [= <-]. split; split; try done. eauto.
  - intros [= <-]. split; split; try done. by intros [[? ?] _].
Qed.

(** The metadata a run registers, if any: the arguments of the one call. *)
Lemma run_registered env m kw :
  registered (run env).1 = Some (m, kw) →
  chosen_module env = inr m
  ∧ ∃ readme,
      files env !! "README.rst" = Some (inr readme) ∧ kw = setup_kwargs readme.
Proof.
  rewrite run_spec. destruct (chosen_module env) as [e|m']; [done|].
  destruct (files env !! "README.rst") as [[e|readme]|]; [done| |done].
  simpl. intros [= <- <-]. eauto.
Qed.

(** The first thing a run does is to try setuptools. *)
Lemma import_events_head env :
  import_events env !! 0
  = Some (EvImport Setuptools (bool_decide (import_setuptools env = None))).
Proof.
  unfold import_events. by destruct (import_setuptools env) as [e|].
Qed.

(** When [setup] is imported, a successful import is in the log. *)
Lemma import_events_chosen env m :
  chosen_module env = inr m →
  ∃ i, import_events env !! i = Some (EvImport m true).
Proof.
  unfold chosen_module, import_events.
  destruct (import_setuptools env) as [e|].
  - destruct (is_ImportError e); [|done].
    destruct (import_distutils_core env); [done|].
    intros [= <-]. by exists 1.
  - intros [= <-]. by exists 0.
Qed.

(** When it is not, no import in the log succeeded. *)
Lemma import_events_failed env e :
  chosen_module env = inl e → ∀ m, EvImport m true ∉ import_events env.
Proof.
  unfold chosen_module, import_events.
  destruct (import_setuptools env) as [e0|]; [|done].
  destruct (is_ImportError e0).
  - destruct (import_distutils_core env); [|done]. intros _ m.
    rewrite !elem_of_cons, elem_of_nil. by intros [?|[?|[]]].
  - intros _ m. rewrite !elem_of_cons, elem_of_nil. by intros [?|[]].
Qed.

(** No call of [setup] among the imports followed by the open. *)
Lemma not_setup_in_imports_then env f ok m kw :
  EvSetup m kw ∉ (import_events env ++ [EvOpen f ok])%list.
Proof.
  rewrite elem_of_app, list_elem_of_singleton. intros [Hin|?]; [|done].
  apply import_events_only_imports in Hin. by destruct Hin.
Qed.

(** ** The claims about [setup.py] *)

(** C1: the [install_requires] argument lists exactly six packages, one for
    each role the specification names (YAML parser pyyaml, HTML escaper
    houdini.py, Markdown renderer misaka, syntax highlighter pygments, web
    framework tornado, transliterator unidecode), and no other. *)
Theorem install_requires_six_roles (readme : string) :
  let deps := install_requires (setup_kwargs readme) in
  length deps = 6
  ∧ NoDup deps
  ∧ deps ≡ₚ role_package <$> all_roles
  ∧ (∀ p, p ∈ deps ↔ ∃ r, role_package r = p).
Proof.
  simpl. split; [done|]. split.
  { compute_done. }
  assert (Hperm :
    ["pyyaml"; "tornado"; "houdini.py"; "misaka"; "pygments"; "unidecode"]
    ≡ₚ role_package <$> all_roles).
  { compute_done. }
  split; [done|]. intros p. rewrite Hperm, list_elem_of_fmap. split.
  - intros (r & -> & _). eauto.
  - intros [r <-]. exists r. split; [done|]. unfold all_roles.
    rewrite !elem_of_cons. destruct r; tauto.
Qed.

(** C8: the [description] argument of the [setup] call is the string
    'A simple static website generator.', the specification's phrase up to
    the capital and the full stop; the call also carries an author, a list
    of dependencies and a list of classifiers. *)
Theorem description_simple_static_generator (readme : string) :
  let kw := setup_kwargs readme in
  description kw = "A simple static website generator."
  ∧ string_lower (description kw) = spec_phrase +:+ "."
  ∧ author kw = "Frank Smit"
  ∧ length (install_requires kw) = 6
  ∧ length (classifiers kw) = 7.
Proof.
  simpl. split; [done|]. split; [by vm_compute|]. done.
Qed.

(** C9, as amended: the script first imports [setup] (from setuptools, or
    from distutils.core after an ImportError): the setuptools import is the
    first thing a run does, and README.rst is opened only after an import has
    succeeded.  Once it has, README.rst is opened without any guard, and a
    call of [setup] comes only after the file was opened and read.  If no
    import succeeds, the import's exception ends the run before any file is
    opened.  If README.rst is missing the run ends with an I/O error for it;
    if it is there and the read raises, with that exception; in all these
    cases [setup] is never called and no metadata is registered.  If the
    read succeeds, [setup] is called with the text as long description, and
    the run ends as that call does. *)
Theorem readme_read_before_setup (env : Env) :
  let w := (run env).1 in
  (∀ i m kw, log w !! i = Some (EvSetup m kw) →
     ∃ j k, j < k < i
       ∧ log w !! j = Some (EvOpen "README.rst" true)
       ∧ log w !! k = Some (EvRead "README.rst"))
  ∧ log w !! 0
    = Some (EvImport Setuptools (bool_decide (import_setuptools env = None)))
  ∧ (∀ j f ok, log w !! j = Some (EvOpen f ok) →
       f = "README.rst" ∧ ∃ i m, i < j ∧ log w !! i = Some (EvImport m true))
  ∧ ((∃ m, EvImport m true ∈ log w) → ∃ ok, EvOpen "README.rst" ok ∈ log w)
  ∧ (∀ e, chosen_module env = inl e →
       (run env).2 = inl e
       ∧ registered w = registered initial
       ∧ (∀ f ok, EvOpen f ok ∉ log w)
       ∧ (∀ m kw, EvSetup m kw ∉ log w))
  ∧ (files env !! "README.rst" = None →
     registered w = registered initial
     ∧ (∀ m kw, EvSetup m kw ∉ log w)
     ∧ match chosen_module env with
       | inr _ =>
           (run env).2 = inl (IOError "README.rst")
           ∧ EvOpen "README.rst" false ∈ log w
       | inl e =>
           (run env).2 = inl e ∧ ∀ f ok, EvOpen f ok ∉ log w
       end)
  ∧ (∀ e m, files env !! "README.rst" = Some (inl e) →
       chosen_module env = inr m →
       (run env).2 = inl e
       ∧ registered w = registered initial
       ∧ (∀ m' kw, EvSetup m' kw ∉ log w))
  ∧ (∀ readme m, files env !! "README.rst" = Some (inr readme) →
       chosen_module env = inr m →
       registered w = Some (m, setup_kwargs readme)
       ∧ long_description (setup_kwargs readme) = readme
       ∧ (run env).2 = match setup_result env m (setup_kwargs readme) with
                       | None => inr tt
                       | Some e => inl e
                       end).
Proof.
  simpl. rewrite run_spec.
  pose proof (import_events_head env) as Hhead.
  assert (Hn : 0 < length (import_events env))
    by (by eapply lookup_lt_Some).
  destruct (chosen_module env) as [e|m] eqn:Hc.
  { (* no import succeeds *)
    pose proof (import_events_failed env e Hc) as Hfail. simpl.
    assert (Hopen : ∀ f ok, EvOpen f ok ∉ import_events env).
    { intros f ok Hin. apply import_events_only_imports in Hin. by destruct Hin. }
    assert (Hcall : ∀ m kw, EvSetup m kw ∉ import_events env).
    { intros m kw Hin. apply import_events_only_imports in Hin. by destruct Hin. }
    split_and!; try done.
    - intros i m kw Hi. by apply list_elem_of_lookup_2, Hcall in Hi.
    - intros j f ok Hj. by apply list_elem_of_lookup_2, Hopen in Hj.
    - intros [m Hin]. by apply Hfail in Hin.
    - by intros e' [= <-]. }
  destruct (import_events_chosen env m Hc) as [i0 Hi0].
  assert (Hi0n : i0 < length (import_events env)) by (by eapply lookup_lt_Some).
  set (n := length (import_events env)) in *.
  destruct (files env !! "README.rst") as [[e|readme]|] eqn:Hf; simpl.
  - (* the read raises *)
    split_and!; try done.
    + intros i m' kw Hi. apply list_elem_of_lookup_2 in Hi.
      by apply not_setup_in_imports_then in Hi.
    + by rewrite lookup_app_l.
    + intros j f ok Hj. destruct (decide (j < n)) as [Hlt|Hge].
      { rewrite lookup_app_l in Hj by done.
        apply list_elem_of_lookup_2, import_events_only_imports in Hj.
        by destruct Hj. }
      rewrite lookup_app_r in Hj by (fold n; lia). fold n in Hj.
      destruct (j - n) as [|?] eqn:Hjn; [|done]. injection Hj as <- <-.
      split; [done|]. exists i0, m. split; [lia|]. by rewrite lookup_app_l.
    + intros _. exists true. rewrite elem_of_app. right. apply list_elem_of_here.
    + intros e' m' [= <-] _. split_and!; try done.
      intros m'' kw Hin. by apply not_setup_in_imports_then in Hin.
  - (* the read succeeds *)
    split_and!; try done.
    + intros i m' kw Hi. destruct (decide (i < n)) as [Hlt|Hge].
      { rewrite lookup_app_l in Hi by done.
        apply list_elem_of_lookup_2, import_events_only_imports in Hi.
        by destruct Hi. }
      rewrite lookup_app_r in Hi by (fold n; lia). fold n in Hi.
      destruct (i - n) as [|[|[|?]]] eqn:Hin; try done.
      exists n, (S n). split; [lia|].
      rewrite !lookup_app_r by (fold n; lia). fold n.
      replace (n - n) with 0 by lia. replace (S n - n) with 1 by lia. done.
    + by rewrite lookup_app_l.
    + intros j f ok Hj. destruct (decide (j < n)) as [Hlt|Hge].
      { rewrite lookup_app_l in Hj by done.
        apply list_elem_of_lookup_2, import_events_only_imports in Hj.
        by destruct Hj. }
      rewrite lookup_app_r in Hj by (fold n; lia). fold n in Hj.
      destruct (j - n) as [|[|[|?]]] eqn:Hjn; try done. injection Hj as <- <-.
      split; [done|]. exists i0, m. split; [lia|]. by rewrite lookup_app_l.
    + intros _. exists true. rewrite elem_of_app. right. apply list_elem_of_here.
    + by intros readme' m' [= <-] [= <-].
  - (* README.rst is missing *)
    assert (Hcall : ∀ m' kw,
      EvSetup m' kw ∉ (import_events env ++ [EvOpen "README.rst" false])%list).
    { intros m' kw Hin. by apply not_setup_in_imports_then in Hin. }
    split_and!; try done.
    + intros i m' kw Hi. by apply list_elem_of_lookup_2, Hcall in Hi.
    + by rewrite lookup_app_l.
    + intros j f ok Hj. destruct (decide (j < n)) as [Hlt|Hge].
      { rewrite lookup_app_l in Hj by done.
        apply list_elem_of_lookup_2, import_events_only_imports in Hj.
        by destruct Hj. }
      rewrite lookup_app_r in Hj by (fold n; lia). fold n in Hj.
      destruct (j - n) as [|?] eqn:Hjn; [|done]. injection Hj as <- <-.
      split; [done|]. exists i0, m. split; [lia|]. by rewrite lookup_app_l.
    + intros _. exists false. rewrite elem_of_app. right. apply list_elem_of_here.
    + intros _. split_and!; try done.
      rewrite elem_of_app. right. apply list_elem_of_here.
Qed.

(** setuptools imports and README.rst is missing: the run ends with the I/O
    error, and nothing is registered.  The same with a README.rst that does
    not decode: the run ends with the error of the read. *)
Lemma readme_read_before_setup_witness :
  (run env_no_readme).2 = inl (IOError "README.rst")
  ∧ registered (run env_no_readme).1 = None
  ∧ (run env_undecodable_readme).2 = inl (OtherError "UnicodeDecodeError")
  ∧ registered (run env_undecodable_readme).1 = None.
Proof.
  destruct (proj1 (proj2 (proj2 (proj2 (proj2 (proj2
    (readme_read_before_setup env_no_readme)))))) eq_refl)
    as (Hreg & _ & Hexn).
  destruct (proj1 (proj2 (proj2 (proj2 (proj2 (proj2 (proj2
    (readme_read_before_setup env_undecodable_readme)))))))
    (OtherError "UnicodeDecodeError") Setuptools eq_refl eq_refl)
    as (Hexn' & Hreg' & _).
  split; [exact (proj1 Hexn)|]. split; [exact Hreg|].
  split; [exact Hexn'|exact Hreg'].
Defined.

(** C9 as stated fails where neither setuptools nor distutils.core imports:
    README.rst is missing, yet the run ends with the ImportError of line 6,
    not with an I/O error, and no file was opened. *)
Lemma missing_readme_import_error :
  files env_no_setup !! "README.rst" = None
  ∧ (run env_no_setup).2 = inl (ImportError "distutils.core")
  ∧ forallb (λ ev, negb (is_EvOpen ev)) (log (run env_no_setup).1) = true.
Proof. by vm_compute. Qed.

(** C10: [setup] comes from setuptools when that import succeeds, and from
    distutils.core only when the setuptools import raised ImportError; the
    call that follows passes the same arguments in both branches, so two
    runs over the same README.rst register the same metadata whichever
    module they took [setup] from. *)
Theorem import_fallback_same_metadata (env1 env2 : Env) m1 kw1 m2 kw2 :
  files env1 !! "README.rst" = files env2 !! "README.rst" →
  registered (run env1).1 = Some (m1, kw1) →
  registered (run env2).1 = Some (m2, kw2) →
  kw1 = kw2
  ∧ (m1 = Setuptools ↔ import_setuptools env1 = None)
  ∧ (m1 = DistutilsCore ↔
       (∃ mn, import_setuptools env1 = Some (ImportError mn))
       ∧ import_distutils_core env1 = None)
  ∧ (∀ ok, EvImport DistutilsCore ok ∈ log (run env1).1 →
       ∃ mn, import_setuptools env1 = Some (ImportError mn))
  ∧ EvSetup m1 kw1 ∈ log (run env1).1.
Proof.
  intros Hfiles H1 H2.
  destruct (run_registered _ _ _ H1) as (Hm1 & r1 & Hr1 & ->).
  destruct (run_registered _ _ _ H2) as (Hm2 & r2 & Hr2 & ->).
  split; [congruence|].
  destruct (chosen_module_inr _ _ Hm1) as [Hs Hd].
  do 2 (split; [done|]).
  rewrite run_spec, Hm1, Hr1; simpl. split.
  - intros ok. rewrite elem_of_app. intros [Hin|Hin].
    + by eapply import_events_distutils.
    + rewrite !elem_of_cons, elem_of_nil in Hin.
      by destruct Hin as [?|[?|[?|[]]]].
  - rewrite elem_of_app. right.
    do 2 apply list_elem_of_further. apply list_elem_of_here.
Qed.

(** A run with setuptools and a run that falls back to distutils.core. *)
Lemma import_fallback_same_metadata_witness :
  registered (run env_setuptools).1
    = Some (Setuptools, setup_kwargs "Elyse, a static website generator.")
  ∧ registered (run env_distutils).1
    = Some (DistutilsCore, setup_kwargs "Elyse, a static website generator.")
  ∧ (Setuptools = Setuptools ↔ import_setuptools env_setuptools = None).
Proof.
  assert (H1 : registered (run env_setuptools).1
    = Some (Setuptools, setup_kwargs "Elyse, a static website generator."))
    by (vm_compute; reflexivity).
  assert (H2 : registered (run env_distutils).1
    = Some (DistutilsCore, setup_kwargs "Elyse, a static website generator."))
    by (vm_compute; reflexivity).
  split; [exact H1|]. split; [exact H2|].
  exact (proj1 (proj2 (import_fallback_same_metadata
    env_setuptools env_distutils _ _ _ _ eq_refl H1 H2))).
Defined.

(** ** Further properties of [setup.py] *)

Lemma import_events_no_setup_call env :
  List.filter is_EvSetup (import_events env) = [].
Proof.
  unfold import_events. destruct (import_setuptools env) as [e|]; [|done].
  by destruct (is_ImportError e).
Qed.

(** The conditions under which [setup] gets imported, on the environment. *)
Lemma chosen_module_is_inr env :
  (∃ m, chosen_module env = inr m) ↔
  import_setuptools env = None
  ∨ ((∃ mn, import_setuptools env = Some (ImportError mn))
     ∧ import_distutils_core env = None).
Proof.
  unfold chosen_module. destruct (import_setuptools env) as [e|].
  - destruct e as [mn| |]; simpl.
    + destruct (import_distutils_core env) as [e'|].
      * split; [by intros [m ?]|]. by intros [?|[_ ?]].
      * split; [|by eauto]. intros _. right. eauto.
    + split; [by intros [m ?]|]. by intros [?|[[mn ?] _]].
    + split; [by intros [m ?]|]. by intros [?|[[mn ?] _]].
  - split; [by left|by eauto].
Qed.

(** X1: the [except] clause of lines 5-6 catches ImportError only.  When
    importing setuptools raises any other exception, that exception ends the
    script at once: distutils.core is not tried, no file is opened, [setup]
    is not called and nothing is registered, whatever the directory holds. *)
Theorem other_exception_not_caught (env : Env) (e : PyExn) :
  import_setuptools env = Some e →
  is_ImportError e = false →
  run env = ({| log := [EvImport Setuptools false]; registered := None |}, inl e).
Proof.
  intros Himp Hcls. rewrite run_spec.
  unfold chosen_module, import_events. by rewrite Himp, Hcls.
Qed.

(** A setuptools that raises a syntax error on import, with distutils and
    README.rst both there. *)
Lemma other_exception_not_caught_witness :
  run env_broken_setuptools
  = ({| log := [EvImport Setuptools false]; registered := None |},
     inl (OtherError "SyntaxError")).
Proof.
  exact (other_exception_not_caught env_broken_setuptools
           (OtherError "SyntaxError") eq_refl eq_refl).
Defined.

(** X2: [setup] is reached, and metadata handed to it, exactly when [setup]
    could be imported (setuptools imports, or it raised ImportError and
    distutils.core imports) and README.rst is there and its read succeeds;
    an empty README.rst counts.  A run that ends without an exception has
    reached the call, and once the call is reached the run ends as the call
    does: the script adds no failure of its own after it. *)
Theorem setup_reached_iff (env : Env) :
  let w := (run env).1 in
  (is_Some (registered w) ↔
     (import_setuptools env = None
      ∨ ((∃ mn, import_setuptools env = Some (ImportError mn))
         ∧ import_distutils_core env = None))
     ∧ ∃ text, files env !! "README.rst" = Some (inr text))
  ∧ ((run env).2 = inr tt → is_Some (registered w))
  ∧ (∀ m kw, registered w = Some (m, kw) →
       EvSetup m kw ∈ log w
       ∧ (run env).2 = match setup_result env m kw with
                       | None => inr tt
                       | Some e => inl e
                       end)
  ∧ (files env !! "README.rst" = Some (inr "") →
     import_setuptools env = None →
     registered w = Some (Setuptools, setup_kwargs "")).
Proof.
  simpl. rewrite <- chosen_module_is_inr, run_spec. split_and!.
  - destruct (chosen_module env) as [e|m]; simpl.
    { split; [by intros [? ?]|]. by intros [[m ?] _]. }
    destruct (files env !! "README.rst") as [[e|text]|]; simpl.
    + split; [by intros [? ?]|]. by intros [_ [? ?]].
    + split; [by eauto|by eauto].
    + split; [by intros [? ?]|]. by intros [_ [? ?]].
  - destruct (chosen_module env) as [e|m]; simpl; [done|].
    destruct (files env !! "README.rst") as [[e|text]|]; simpl; [done| |done].
    by eauto.
  - intros m kw. destruct (chosen_module env) as [e|m']; simpl; [done|].
    destruct (files env !! "README.rst") as [[e|text]|]; simpl; [done| |done].
    intros [= <- <-]. split; [|done]. rewrite elem_of_app. right.
    do 2 apply list_elem_of_further. apply list_elem_of_here.
  - intros Hreadme Himp. unfold chosen_module. by rewrite Himp, Hreadme.
Qed.

(** An empty README.rst and no command: [setup] is reached with an empty
    long description, and the run ends with the exit it raises. *)
Lemma setup_reached_iff_witness :
  registered (run env_empty_readme).1 = Some (Setuptools, setup_kwargs "")
  ∧ (run env_empty_readme).2
    = inl (OtherError "SystemExit: no commands supplied").
Proof.
  pose proof (setup_reached_iff env_empty_readme) as (_ & _ & Hcall & Hempty).
  specialize (Hempty eq_refl eq_refl).
  split; [exact Hempty|]. exact (proj2 (Hcall _ _ Hempty)).
Defined.

(** X3: [setup] is called at most once in a run, and once exactly when
    metadata is registered; the call is the last thing the script itself
    does, and its arguments are the metadata registered. *)
Theorem setup_called_at_most_once (env : Env) :
  let w := (run env).1 in
  (setup_calls w ≤ 1)%nat
  ∧ (setup_calls w = 1%nat ↔ is_Some (registered w))
  ∧ (∀ m kw, EvSetup m kw ∈ log w →
       last (log w) = Some (EvSetup m kw) ∧ registered w = Some (m, kw)).
Proof.
  simpl. unfold setup_calls. rewrite run_spec.
  destruct (chosen_module env) as [e|m]; simpl.
  { rewrite import_events_no_setup_call; simpl. split_and!; [lia| |].
    - split; [done|by intros [? ?]].
    - intros m kw Hin. apply import_events_only_imports in Hin. by destruct Hin. }
  destruct (files env !! "README.rst") as [[e|readme]|]; simpl;
    rewrite List.filter_app, import_events_no_setup_call; simpl.
  - split_and!; [lia| |].
    + split; [done|by intros [? ?]].
    + intros m' kw Hin. by apply not_setup_in_imports_then in Hin.
  - split_and!; [lia| |].
    + split; [by eauto|done].
    + intros m' kw. rewrite elem_of_app. intros [Hin|Hin].
      { apply import_events_only_imports in Hin. by destruct Hin. }
      rewrite !elem_of_cons, elem_of_nil in Hin.
      destruct Hin as [?|[?|[[= -> ->]|[]]]]; try done.
      split; [|done].
      change [EvOpen "README.rst" true; EvRead "README.rst";
              EvSetup m (setup_kwargs readme)]
        with ([EvOpen "README.rst" true; EvRead "README.rst"]
              ++ [EvSetup m (setup_kwargs readme)])%list.
      by rewrite app_assoc, last_snoc.
  - split_and!; [lia| |].
    + split; [done|by intros [? ?]].
    + intros m' kw Hin. by apply not_setup_in_imports_then in Hin.
Qed.

(** X5: when the fallback import fails as well, the exception that ends the
    script is the one distutils.core raised, of whatever class; the
    ImportError of setuptools is swallowed by the [except] clause.  Both
    imports were tried, in that order, no file was opened and nothing is
    registered, also when README.rst exists. *)
Theorem fallback_failure_reported (env : Env) (mn : string) (e : PyExn) :
  import_setuptools env = Some (ImportError mn) →
  import_distutils_core env = Some e →
  run env
  = ({| log := [EvImport Setuptools false; EvImport DistutilsCore false];
        registered := None |},
     inl e).
Proof.
  intros Hs Hd. rewrite run_spec.
  unfold chosen_module, import_events. by rewrite Hs, Hd.
Qed.

(** setuptools is missing and distutils.core raises an AttributeError. *)
Lemma fallback_failure_reported_witness :
  (run env_broken_distutils).2 = inl (OtherError "AttributeError")
  ∧ registered (run env_broken_distutils).1 = None
  ∧ files env_broken_distutils !! "README.rst"
    = Some (inr "Elyse, a static website generator.").
Proof.
  rewrite (fallback_failure_reported env_broken_distutils
             "setuptools" (OtherError "AttributeError") eq_refl eq_refl).
  split; [reflexivity|]. split; [reflexivity|by vm_compute].
Defined.

End SetupPy.

(** * Part II: the build pipeline

    [setup.py] installs the script [elyse]; that script is not among the
    sources, so the pipeline below follows the specification's sections 3 to 7
    and is used only for the claims about the pipeline. *)

Module Pipeline.

Local Open Scope Z_scope.

(** ** Data model (section 3) *)

(** Modelled from the spec: the values a metadata mapping holds, "scalar or
    sequence"; the [elyse] script that defines them is missing. *)
Inductive Scalar :=
  | SStr (s : string)
  | SInt (n : Z)
  | SBool (b : bool).

(** Modelled from the spec: a metadata value, one scalar or a sequence. *)
Inductive MetaValue :=
  | VScalar (s : Scalar)
  | VSeq (l : list Scalar).

Global Instance Scalar_eq_dec : EqDecision Scalar.
Proof. solve_decision. Defined.

Global Instance MetaValue_eq_dec : EqDecision MetaValue.
Proof. solve_decision. Defined.

(** Modelled from the spec: a Document (section 3) of the missing [elyse]
    script: source path, parsed metadata, raw body, derived output path. *)
Record Document := {
  source_path : string;
  metadata : gmap string MetaValue;
  body : string;
  output_path : string
}.

Global Instance Document_eq_dec : EqDecision Document.
Proof. solve_decision. Defined.

(** Modelled from the spec: the metadata keys of section 3 (title, date,
    tags, template name), read from the mapping. *)
Definition doc_title (d : Document) : string :=
  match metadata d !! "title" with
  | Some (VScalar (SStr t)) => t
  | _ => ""
  end.

(** Modelled from the spec: the date of a Document, a number of seconds as
    the modification time that defaults it; a date that is not a number
    counts as 0. *)
Definition doc_date (d : Document) : Z :=
  match metadata d !! "date" with
  | Some (VScalar (SInt n)) => n
  | _ => 0
  end.

(** Modelled from the spec: the text of a scalar of a tag sequence. *)
Definition scalar_text (s : Scalar) : option string :=
  match s with SStr t => Some t | _ => None end.

(** Modelled from the spec: the tags of a Document, a sequence or one
    scalar. *)
Definition doc_tags (d : Document) : list string :=
  match metadata d !! "tags" with
  | Some (VSeq l) => omap scalar_text l
  | Some (VScalar (SStr t)) => [t]
  | _ => []
  end.

(** Modelled from the spec: the explicit per-document template reference of
    section 4.2, if the metadata has one. *)
Definition doc_template (d : Document) : option string :=
  match metadata d !! "template" with
  | Some (VScalar (SStr t)) => Some t
  | _ => None
  end.

(** Modelled from the spec: the two build modes of section 4.5 (a
    configuration enum, section 9) of the missing [elyse] script. *)
Inductive BuildMode := BestEffort | AbortOnError.

Global Instance BuildMode_eq_dec : EqDecision BuildMode.
Proof. solve_decision. Defined.

(** Modelled from the spec: the global configuration of a Site (section 3),
    with the site-wide default template of section 4.2 and the build mode. *)
Record Config := {
  site_title : string;
  base_url : string;
  output_dir : string;
  default_template : string;
  page_size : nat;
  mode : BuildMode
}.

(** Modelled from the spec: best-effort is the default mode (section 4.5);
    post.html is the site default of the example of section 8. *)
Definition default_config : Config := {|
  site_title := "";
  base_url := "/";
  output_dir := "_site";
  default_template := "post.html";
  page_size := 10;
  mode := BestEffort
|}.

(** Modelled from the spec: the error taxonomy of section 7. *)
Inductive ErrorKind :=
  | UnreadableSource
  | MalformedMetadata
  | TemplateNotFound
  | RenderError
  | WriteError.

Global Instance ErrorKind_eq_dec : EqDecision ErrorKind.
Proof. solve_decision. Defined.

(** Modelled from the spec: an error recorded for one file (section 7,
    "per-document detail"). *)
Record BuildError := {
  err_kind : ErrorKind;
  err_path : string
}.

Global Instance BuildError_eq_dec : EqDecision BuildError.
Proof. solve_decision. Defined.

(** ** SiteModel (section 4.4) *)

(** Modelled from the spec: the adjacency of one position of the ordered
    sequence, stored as indices into it (section 9). *)
Record Link := {
  link_prev : option nat;
  link_next : option nat
}.

(** Modelled from the spec: the Site of sections 3 and 4.4, the Documents in
    chronological order with the derived tag index, next/previous chain and
    pagination groups; the [elyse] script that builds it is missing. *)
Record Site := {
  site_config : Config;
  documents : list Document;
  tag_index : gmap string (list nat);
  chain : list Link;
  pagination : list (list nat)
}.

(** Modelled from the spec: the order of the chronological sequence, "sorted
    by date": a Document comes no later than another.  The spec names no
    other key. *)
Definition chron_le (d1 d2 : Document) : Prop := doc_date d1 ≤ doc_date d2.

Global Instance chron_le_dec : RelDecision chron_le.
Proof. intros d1 d2. unfold chron_le. apply _. Defined.

(** Modelled from the spec: "chronological ordering", sorted by date. *)
Definition chronological (docs : list Document) : list Document :=
  merge_sort chron_le docs.

(** Modelled from the spec: the neighbours of position [i] among [n]. *)
Definition link_at (n i : nat) : Link := {|
  link_prev := match i with O => None | S j => Some j end;
  link_next := if decide (S i < n)%nat then Some (S i) else None
|}.

(** Modelled from the spec: the next/previous chain over the ordered
    sequence. *)
Definition chain_of (docs : list Document) : list Link :=
  link_at (length docs) <$> seq 0 (length docs).

(** Modelled from the spec: one more position under a tag. *)
Definition add_tag (i : nat) (t : string) (idx : gmap string (list nat)) :
    gmap string (list nat) :=
  <[t := i :: default [] (idx !! t)]> idx.

(** Modelled from the spec: the tag index, each tag with the positions of
    the Documents that carry it. *)
Definition tag_index_of (docs : list Document) : gmap string (list nat) :=
  foldr (λ '(i, d) idx, foldr (add_tag i) idx (doc_tags d)) ∅
        (zip (seq 0 (length docs)) docs).

(** Modelled from the spec: consecutive groups of [n] positions. *)
Fixpoint chunks (fuel : nat) (n : nat) (l : list nat) : list (list nat) :=
  match fuel, l with
  | O, _ | _, [] => []
  | S fuel', _ => take n l :: chunks fuel' n (drop n l)
  end.

(** Modelled from the spec: pagination groups, the positions of the ordered
    sequence cut into pages of [page_size]; a size of zero means one page. *)
Definition pagination_of (size : nat) (docs : list Document) : list (list nat) :=
  let positions := seq 0 (length docs) in
  match size with
  | O => match positions with [] => [] | _ => [positions] end
  | S _ => chunks (length docs) size positions
  end.

(** Modelled from the spec: SiteModel, section 4.4. *)
Definition build_site (cfg : Config) (docs : list Document) : Site :=
  let ordered := chronological docs in {|
    site_config := cfg;
    documents := ordered;
    tag_index := tag_index_of ordered;
    chain := chain_of ordered;
    pagination := pagination_of (page_size cfg) ordered
  |}.



(** ** The source tree and the backends *)

(** Modelled from the spec: a file of the input tree (section 6), readable
    with its text and modification time, or failing on I/O. *)
Inductive SourceFile :=
  | Readable (content : string) (mtime : Z)
  | Unreadable.

(** Modelled from the spec: what the pipeline takes as black boxes
    (sections 1, 4.3 and 9) or leaves to configuration and documented policy
    (sections 4.1, 6 and 9): which files are documents, how the metadata
    block is split off ([None]: a block is opened and not closed) and parsed
    ([None]: not parseable), the default title, the derivation of the output
    path, the per-directory template convention, the markup renderer
    ([None]: conversion failure) and the application of a template. *)
Class Backend := {
  eligible : string → bool;
  split_metadata : string → option (option string * string);
  parse_metadata : string → option (gmap string MetaValue);
  title_of_filename : string → string;
  derive_output_path : string → gmap string MetaValue → string;
  directory_template : string → option string;
  render_markup : string → option string;
  apply_template : string → Site → Document → string → string
}.

(** Modelled from the spec: a RenderedPage (section 3), a Document with its
    final HTML and the path it is written to. *)
Record RenderedPage := {
  page_doc : Document;
  page_html : string;
  page_path : string
}.

(** Modelled from the spec: the states of the build (section 4.5). *)
Inductive Phase := Idle | Loading | Modeling | Rendering | Writing | Done | Failed.

Global Instance Phase_eq_dec : EqDecision Phase.
Proof. solve_decision. Defined.

(** Modelled from the spec: what a build pass holds, each field filled by
    the step of section 4.5 that produces it. *)
Record Build := {
  phase : Phase;
  loaded : list Document;
  site : Site;
  rendered : list RenderedPage;
  written : list RenderedPage;
  output : gmap string string;
  errors : list BuildError
}.

Section pipeline.
Context `{Backend}.

(** ** ContentLoader (section 4.1) *)

(** Modelled from the spec: the default policy, title from the file name and
    date from the modification time, for a key that is missing. *)
Definition with_defaults (path : string) (mtime : Z) (m : gmap string MetaValue) :
    gmap string MetaValue :=
  let m1 :=
    match m !! "title" with
    | Some _ => m
    | None => <["title" := VScalar (SStr (title_of_filename path))]> m
    end in
  match m1 !! "date" with
  | Some _ => m1
  | None => <["date" := VScalar (SInt mtime)]> m1
  end.

(** Modelled from the spec: the Document of a file, with its defaults and
    its derived output path. *)
Definition make_document (path : string) (mtime : Z) (m : gmap string MetaValue)
    (text : string) : Document :=
  let m' := with_defaults path mtime m in {|
    source_path := path;
    metadata := m';
    body := text;
    output_path := derive_output_path path m'
  |}.

(** Modelled from the spec: reading one source file, section 4.1. *)
Definition load_file (path : string) (f : SourceFile) : ErrorKind + Document :=
  match f with
  | Unreadable => inl UnreadableSource
  | Readable content mtime =>
      match split_metadata content with
      | None => inl MalformedMetadata
      | Some (None, text) => inr (make_document path mtime ∅ text)
      | Some (Some block, text) =>
          match parse_metadata block with
          | None => inl MalformedMetadata
          | Some m => inr (make_document path mtime m text)
          end
      end
  end.

(** Modelled from the spec: the outcome of one eligible file, a Document or
    an error under the file's path. *)
Definition load_ok (e : string * SourceFile) : option Document :=
  if eligible e.1 then
    match load_file e.1 e.2 with inr d => Some d | inl _ => None end
  else None.

(** Modelled from the spec: the error of one eligible file, if it fails. *)
Definition load_err (e : string * SourceFile) : option BuildError :=
  if eligible e.1 then
    match load_file e.1 e.2 with
    | inl k => Some {| err_kind := k; err_path := e.1 |}
    | inr _ => None
    end
  else None.

(** Modelled from the spec: the pass over the tree, in discovery order; a
    failure is recorded for its file and the pass goes on. *)
Definition loaded_documents (tree : list (string * SourceFile)) : list Document :=
  omap load_ok tree.

(** Modelled from the spec: the failures of the pass, one per file that
    failed. *)
Definition load_errors (tree : list (string * SourceFile)) : list BuildError :=
  omap load_err tree.

(** ** TemplateResolver (section 4.2) *)

(** Modelled from the spec: the directory of a source path, for the
    per-directory convention. *)
Fixpoint dirname_aux (s : string) : option string :=
  match s with
  | EmptyString => None
  | String c s' =>
      match dirname_aux s' with
      | Some d => Some (String c d)
      | None => if decide (c = Ascii.ascii_of_nat 47) then Some EmptyString else None
      end
  end.

(** Modelled from the spec: the directory of a path, what precedes its last
    slash. *)
Definition dirname (s : string) : string := default "" (dirname_aux s).

(** Modelled from the spec: the names tried, in the order of section 4.2:
    the explicit reference, the per-directory convention, the site default. *)
Definition template_candidates (cfg : Config) (d : Document) : list string :=
  option_list (doc_template d)
  ++ option_list (directory_template (dirname (source_path d)))
  ++ [default_template cfg].

(** Modelled from the spec: TemplateResolver, the first candidate that names
    an existing template, or [TemplateNotFound]. *)
Definition resolve_template (templates : gmap string string) (cfg : Config)
    (d : Document) : ErrorKind + string :=
  match list_find (λ n, is_Some (templates !! n)) (template_candidates cfg d) with
  | Some (_, n) => inr n
  | None => inl TemplateNotFound
  end.

(** Modelled from the spec: a name, kept when a template of that name
    exists ("resolve to an existing template"). *)
Definition existing (templates : gmap string string) (o : option string) :
    option string :=
  n ← o; if decide (is_Some (templates !! n)) then Some n else None.

(** ** Renderer and template application (sections 4.3 and 4.5) *)

(** Modelled from the spec: steps (3) and (4) for one Document. *)
Definition render_document (templates : gmap string string) (s : Site)
    (d : Document) : BuildError + RenderedPage :=
  match resolve_template templates (site_config s) d with
  | inl k => inl {| err_kind := k; err_path := source_path d |}
  | inr n =>
      match render_markup (body d) with
      | None => inl {| err_kind := RenderError; err_path := source_path d |}
      | Some html => inr {|
          page_doc := d;
          page_html := apply_template (default "" (templates !! n)) s d html;
          page_path := output_path d
        |}
      end
  end.

(** Modelled from the spec: the page of one Document in step (3), if it
    succeeds. *)
Definition render_ok (templates : gmap string string) (s : Site) (d : Document) :
    option RenderedPage :=
  match render_document templates s d with inr pg => Some pg | inl _ => None end.

(** Modelled from the spec: the error of one Document in step (3), if it
    fails. *)
Definition render_err (templates : gmap string string) (s : Site) (d : Document) :
    option BuildError :=
  match render_document templates s d with inl e => Some e | inr _ => None end.

(** Modelled from the spec: the RenderedPages of a Site. *)
Definition rendered_pages (templates : gmap string string) (s : Site) :
    list RenderedPage :=
  omap (render_ok templates s) (documents s).

(** Modelled from the spec: the errors of step (3), recorded per Document. *)
Definition render_errors (templates : gmap string string) (s : Site) :
    list BuildError :=
  omap (render_err templates s) (documents s).

(** ** Writing (section 4.5, step 5) *)

(** Modelled from the spec: the static assets, the readable files that are
    not documents, copied verbatim. *)
Definition static_asset (e : string * SourceFile) : option (string * string) :=
  if eligible e.1 then None
  else match e.2 with Readable content _ => Some (e.1, content) | Unreadable => None end.

(** Modelled from the spec: a file that is not a document and cannot be
    read is an I/O failure on a source, recorded for that file. *)
Definition asset_err (e : string * SourceFile) : option BuildError :=
  if eligible e.1 then None
  else match e.2 with
       | Unreadable => Some {| err_kind := UnreadableSource; err_path := e.1 |}
       | Readable _ _ => None
       end.

(** Modelled from the spec: how many pages claim an output path. *)
Definition path_count (pages : list RenderedPage) (path : string) : nat :=
  length (filter (λ pg, page_path pg = path) pages).

(** Modelled from the spec: a collision of output paths (section 3: "a build
    error"), with another page or with a copied asset. *)
Definition collides (assets : list (string * string)) (pages : list RenderedPage)
    (pg : RenderedPage) : Prop :=
  (1 < path_count pages (page_path pg))%nat ∨ page_path pg ∈ assets.*1.

Global Instance collides_dec assets pages pg : Decision (collides assets pages pg).
Proof. unfold collides. apply _. Defined.

(** Modelled from the spec: the pages written, those whose path nothing
    else claims. *)
Definition written_pages (assets : list (string * string))
    (pages : list RenderedPage) : list RenderedPage :=
  filter (λ pg, ¬ collides assets pages pg) pages.

(** Modelled from the spec: a WriteError for each page in a collision. *)
Definition write_errors (assets : list (string * string))
    (pages : list RenderedPage) : list BuildError :=
  (λ pg, {| err_kind := WriteError; err_path := source_path (page_doc pg) |})
    <$> filter (collides assets pages) pages.

(** Modelled from the spec: the output tree, one file per written page plus
    the copied assets. *)
Definition output_tree (assets : list (string * string))
    (pages : list RenderedPage) : gmap string string :=
  list_to_map ((λ pg, (page_path pg, page_html pg)) <$> written_pages assets pages)
  ∪ list_to_map assets.

(** ** BuildPipeline (section 4.5) *)

(** Modelled from the spec: where a step goes next; only the mode "abort on
    any error" reaches [Failed]. *)
Definition after_errors (cfg : Config) (errs : list BuildError) (next : Phase) : Phase :=
  match mode cfg, errs with
  | AbortOnError, _ :: _ => Failed
  | _, _ => next
  end.

(** Modelled from the spec: the pass before its first step. *)
Definition initial_build (cfg : Config) : Build := {|
  phase := Idle;
  loaded := [];
  site := build_site cfg [];
  rendered := [];
  written := [];
  output := ∅;
  errors := []
|}.

(** Modelled from the spec: one transition of the state machine
    Idle, Loading, Modeling, Rendering, Writing, Done, with [Failed]
    absorbing.  The state names the step about to run. *)
Definition step (cfg : Config) (templates : gmap string string)
    (tree : list (string * SourceFile)) (b : Build) : Build :=
  match phase b with
  | Idle => {|
      phase := Loading; loaded := loaded b; site := site b;
      rendered := rendered b; written := written b; output := output b;
      errors := errors b |}
  | Loading =>
      let errs := load_errors tree in {|
      phase := after_errors cfg errs Modeling;
      loaded := loaded_documents tree; site := site b;
      rendered := rendered b; written := written b; output := output b;
      errors := errors b ++ errs |}
  | Modeling => {|
      phase := Rendering; loaded := loaded b;
      site := build_site cfg (loaded b);
      rendered := rendered b; written := written b; output := output b;
      errors := errors b |}
  | Rendering =>
      let errs := render_errors templates (site b) in {|
      phase := after_errors cfg errs Writing; loaded := loaded b; site := site b;
      rendered := rendered_pages templates (site b);
      written := written b; output := output b;
      errors := errors b ++ errs |}
  | Writing =>
      let assets : list (string * string) := omap static_asset tree in
      let errs : list BuildError :=
        (omap asset_err tree ++ write_errors assets (rendered b))%list in
      match after_errors cfg errs Done with
      | Failed => {|
          phase := Failed; loaded := loaded b; site := site b;
          rendered := rendered b; written := []; output := ∅;
          errors := errors b ++ errs |}
      | next => {|
          phase := next; loaded := loaded b; site := site b;
          rendered := rendered b;
          written := written_pages assets (rendered b);
          output := output_tree assets (rendered b);
          errors := errors b ++ errs |}
      end
  | Done | Failed => b
  end.

(** Modelled from the spec: [n] transitions from [Idle]. *)
Fixpoint run_steps (n : nat) (cfg : Config) (templates : gmap string string)
    (tree : list (string * SourceFile)) : Build :=
  match n with
  | O => initial_build cfg
  | S n' => step cfg templates tree (run_steps n' cfg templates tree)
  end.

(** Modelled from the spec: a build pass, the five transitions from [Idle]. *)
Definition run_build (cfg : Config) (templates : gmap string string)
    (tree : list (string * SourceFile)) : Build :=
  run_steps 5 cfg templates tree.

(** Modelled from the spec: the overall-success flag of section 7. *)
Definition overall_success (b : Build) : bool :=
  bool_decide (phase b = Done ∧ errors b = []).

End pipeline.

(** ** A small concrete backend and site, used as inputs *)

Module Toy.

(** A metadata block sits between a leading and a closing line of three
    dashes; a block that is opened and never closed is malformed. *)
Definition toy_split (content : string) : option (option string * string) :=
  if String.prefix "---" content then
    match String.index 3 "---" content with
    | Some k =>
        Some (Some (String.substring 3 (k - 3) content),
              String.substring (k + 3) (String.length content - (k + 3)) content)
    | None => None
    end
  else Some (None, content).

(** The block is read as the title; a block starting with a colon does not
    parse. *)
Definition toy_parse (block : string) : option (gmap string MetaValue) :=
  if String.prefix ":" block then None
  else Some {[ "title" := VScalar (SStr block) ]}.

(** The output path comes from the title. *)
Definition toy_output_path (path : string) (m : gmap string MetaValue) : string :=
  match m !! "title" with
  | Some (VScalar (SStr t)) => t +:+ ".html"
  | _ => path +:+ ".html"
  end.

(** The convention: a directory's template is named after the directory. *)
Definition toy_directory_template (dir : string) : option string :=
  if decide (dir = "") then None else Some (dir +:+ ".html").

Global Instance toy_backend : Backend := {|
  eligible := λ path, negb (String.prefix "static/" path);
  split_metadata := toy_split;
  parse_metadata := toy_parse;
  title_of_filename := λ path, path;
  derive_output_path := toy_output_path;
  directory_template := toy_directory_template;
  render_markup := λ text,
    if String.prefix "!" text then None else Some ("<p>" +:+ text +:+ "</p>");
  apply_template := λ tpl _ _ html, tpl +:+ html
|}.

(** Three documents; the metadata block of the first is not closed. *)
Definition tree3 : list (string * SourceFile) :=
  [("a.md", Readable "---Broken" 10);
   ("b.md", Readable "---Hello---body of b" 20);
   ("c.md", Readable "body of c" 30)].

(** A site whose only template is the default. *)
Definition templates1 : gmap string string := {[ "post.html" := "<post>" ]}.

(** The same site with a template that follows the directory convention. *)
Definition templates2 : gmap string string :=
  {[ "post.html" := "<post>"; "posts.html" := "<posts>" ]}.

(** The default configuration, switched to abort on any error. *)
Definition abort_config : Config := {|
  site_title := "";
  base_url := "/";
  output_dir := "_site";
  default_template := "post.html";
  page_size := 10;
  mode := AbortOnError
|}.

(** A document at [posts/hello.md] whose metadata has no [template] key. *)
Definition hello : Document :=
  make_document "posts/hello.md" 5 ∅ "Hello".






End Toy.

Import Toy.

(** ** SiteModel: the chronological order and the order of discovery *)

Global Instance chron_le_trans : Transitive chron_le.
Proof. intros d1 d2 d3. unfold chron_le. lia. Qed.

Global Instance chron_le_total : Total chron_le.
Proof. intros d1 d2. unfold chron_le. lia. Qed.


Lemma chronological_Permutation docs : chronological docs ≡ₚ docs.
Proof. apply merge_sort_Permutation. Qed.









(** ** TemplateResolver: the order of resolution *)

Section resolver_facts.
Context `{Backend}.

Lemma existing_Some templates o t :
  existing templates o = Some t ↔ o = Some t ∧ is_Some (templates !! t).
Proof.
  unfold existing. destruct o as [n|]; simpl.
  - destruct (decide (is_Some (templates !! n))) as [Hn|Hn].
    + split; [by intros [= <-]|by intros [[= <-] _]].
    + split; [done|]. by intros [[= <-] Ht].
  - split; [done|]. by intros [? _].
Qed.

Lemma existing_None templates o :
  existing templates o = None ↔ ∀ n, o = Some n → templates !! n = None.
Proof.
  unfold existing. destruct o as [n|]; simpl.
  - destruct (decide (is_Some (templates !! n))) as [Hn|Hn].
    + split; [done|]. intros Hnone. rewrite (Hnone n eq_refl) in Hn.
      by destruct Hn.
    + split; [|done]. intros _ n' [= <-]. by apply eq_None_not_Some.
  - done.
Qed.

(** The resolver, written as the three tries it makes. *)
Lemma resolve_template_first templates cfg d :
  resolve_template templates cfg d =
    match existing templates (doc_template d) with
    | Some t => inr t
    | None =>
        match existing templates (directory_template (dirname (source_path d))) with
        | Some t => inr t
        | None =>
            match existing templates (Some (default_template cfg)) with
            | Some t => inr t
            | None => inl TemplateNotFound
            end
        end
    end.
Proof.
  unfold resolve_template, template_candidates, existing.
  destruct (doc_template d) as [t1|],
    (directory_template (dirname (source_path d))) as [t2|];
    simpl; repeat case_decide; simpl; done.
Qed.

Lemma resolve_template_not_found templates cfg d :
  resolve_template templates cfg d = inl TemplateNotFound ↔
  ∀ n, n ∈ template_candidates cfg d → templates !! n = None.
Proof.
  unfold resolve_template.
  destruct (list_find _ _) as [[i n]|] eqn:Hfind.
  - apply list_find_Some in Hfind as (Hi & [v Hv] & _).
    split; [done|]. intros Hall.
    apply list_elem_of_lookup_2, Hall in Hi. congruence.
  - apply list_find_None in Hfind. rewrite Forall_forall in Hfind.
    split; [|done]. intros _ n Hn. apply eq_None_not_Some. by apply Hfind.
Qed.

(** C6, as amended: TemplateResolver returns the first existing template in
    the order explicit per-document reference, per-directory convention,
    site-wide default, and it fails, with TemplateNotFound and no other
    error, exactly when none of the three names an existing template.
    Concretely, a document at posts/hello.md with no template key resolves
    to the site default post.html when that template exists and the
    convention names no existing template for the directory posts. *)
Theorem template_resolution_order (templates : gmap string string)
    (cfg : Config) (d : Document) :
  let explicit := doc_template d in
  let conventional := directory_template (dirname (source_path d)) in
  (∀ t, existing templates explicit = Some t →
        resolve_template templates cfg d = inr t)
  ∧ (∀ t, existing templates explicit = None →
          existing templates conventional = Some t →
          resolve_template templates cfg d = inr t)
  ∧ (existing templates explicit = None →
     existing templates conventional = None →
     is_Some (templates !! default_template cfg) →
     resolve_template templates cfg d = inr (default_template cfg))
  ∧ (∀ e, resolve_template templates cfg d = inl e ↔
          e = TemplateNotFound
          ∧ ∀ n, n ∈ template_candidates cfg d → templates !! n = None)
  ∧ (∀ t, resolve_template templates cfg d = inr t →
          t ∈ template_candidates cfg d ∧ is_Some (templates !! t))
  ∧ (source_path d = "posts/hello.md" →
     doc_template d = None →
     default_template cfg = "post.html" →
     is_Some (templates !! "post.html") →
     (∀ n, directory_template "posts" = Some n → templates !! n = None) →
     resolve_template templates cfg d = inr "post.html").
Proof.
  simpl. rewrite resolve_template_first. split_and!.
  - by intros t ->.
  - by intros t -> ->.
  - intros -> -> Hdef. unfold existing; simpl. by case_decide.
  - intros e. rewrite <- resolve_template_first. split.
    + intros He. assert (e = TemplateNotFound) as ->.
      { unfold resolve_template in He. by destruct (list_find _ _) as [[??]|]; simplify_eq. }
      split; [done|]. by apply resolve_template_not_found.
    + intros [-> Hnone]. by apply resolve_template_not_found.
  - intros t. rewrite <- resolve_template_first. unfold resolve_template.
    destruct (list_find _ _) as [[i n]|] eqn:Hfind; [|done].
    intros [= <-]. apply list_find_Some in Hfind as (Hi & Hn & _).
    split; [by eapply list_elem_of_lookup_2|done].
  - intros Hpath Hexp Hdef Hpost Hconv.
    rewrite Hexp, Hpath, Hdef; simpl.
    replace (dirname "posts/hello.md") with "posts" by (by vm_compute).
    apply existing_None in Hconv. rewrite Hconv.
    unfold existing; simpl. by case_decide.
Qed.

End resolver_facts.

(** The document posts/hello.md in a site whose only template is the default
    post.html. *)
Lemma template_resolution_order_witness :
  resolve_template templates1 default_config hello = inr "post.html".
Proof.
  refine (proj2 (proj2 (proj2 (proj2 (proj2
    (template_resolution_order templates1 default_config hello)))))
    _ _ _ _ _).
  - reflexivity.
  - reflexivity.
  - reflexivity.
  - by vm_compute; eexists.
  - intros n [= <-]. by vm_compute.
Defined.

(** C6 as stated fails where the per-directory convention names an existing
    template: the document posts/hello.md has no template key and the site
    default is post.html, yet it resolves to posts.html. *)
Lemma directory_template_before_default :
  source_path hello = "posts/hello.md"
  ∧ doc_template hello = None
  ∧ default_template default_config = "post.html"
  ∧ templates2 !! "post.html" = Some "<post>"
  ∧ resolve_template templates2 default_config hello = inr "posts.html".
Proof. by vm_compute. Qed.

(** ** BuildPipeline: a pass in best-effort mode *)

Section build_facts.
Context `{Backend}.

Lemma filter_all {A} (P : A → Prop) `{∀ x, Decision (P x)} (l : list A) :
  Forall P l → filter P l = l.
Proof.
  induction 1 as [|x l Hx Hl IH]; [done|].
  by rewrite filter_cons_True, IH.
Qed.

Lemma filter_none {A} (P : A → Prop) `{∀ x, Decision (P x)} (l : list A) :
  Forall (λ x, ¬ P x) l → filter P l = [].
Proof.
  induction 1 as [|x l Hx Hl IH]; [done|].
  by rewrite filter_cons_False.
Qed.

Lemma path_count_absent pages path :
  path ∉ page_path <$> pages → path_count pages path = 0%nat.
Proof.
  intros Hnot. unfold path_count. rewrite filter_none; [done|].
  apply Forall_forall. intros pg Hpg Heq. apply Hnot. rewrite <- Heq.
  by apply list_elem_of_fmap_2.
Qed.

Lemma path_count_NoDup pages path :
  NoDup (page_path <$> pages) → (path_count pages path ≤ 1)%nat.
Proof.
  induction pages as [|pg pages IH]; simpl; intros Hnd; [unfold path_count; simpl; lia|].
  apply NoDup_cons in Hnd as [Hpg Hnd].
  unfold path_count. rewrite filter_cons. case_decide as Heq; simpl.
  - subst path. fold (path_count pages (page_path pg)).
    rewrite path_count_absent by done. lia.
  - by apply IH.
Qed.

(** Pages of pairwise distinct paths, and no asset: everything is written. *)
Lemma write_without_collision pages :
  NoDup (page_path <$> pages) →
  written_pages [] pages = pages ∧ write_errors [] pages = [].
Proof.
  intros Hnd.
  assert (Hfree : Forall (λ pg, ¬ collides [] pages pg) pages).
  { apply Forall_forall. intros pg _ [Hcount|Hasset].
    - pose proof (path_count_NoDup pages (page_path pg) Hnd). lia.
    - by apply elem_of_nil in Hasset. }
  split.
  - unfold written_pages. by apply filter_all.
  - unfold write_errors. by rewrite filter_none.
Qed.

Lemma after_errors_best_effort cfg errs next :
  mode cfg = BestEffort → after_errors cfg errs next = next.
Proof. unfold after_errors. by intros ->. Qed.

(** In best-effort mode the five transitions run every step and end in
    [Done], whatever errors were recorded on the way. *)
Lemma run_build_best_effort cfg templates tree :
  mode cfg = BestEffort →
  run_build cfg templates tree =
    let docs := loaded_documents tree in
    let s := build_site cfg docs in
    let pages := rendered_pages templates s in
    let assets := omap static_asset tree in {|
      phase := Done;
      loaded := docs;
      site := s;
      rendered := pages;
      written := written_pages assets pages;
      output := output_tree assets pages;
      errors := ((([] ++ load_errors tree) ++ render_errors templates s)
                 ++ (omap asset_err tree ++ write_errors assets pages))%list
    |}.
Proof.
  intros Hmode. unfold run_build, run_steps.
  cbn [run_steps]. unfold step at 5.
  cbn [phase loaded site rendered written output errors initial_build].
  unfold step at 4.
  cbn [phase loaded site rendered written output errors].
  rewrite after_errors_best_effort by done.
  unfold step at 3.
  cbn [phase loaded site rendered written output errors].
  unfold step at 2.
  cbn [phase loaded site rendered written output errors].
  rewrite after_errors_best_effort by done.
  unfold step.
  cbn [phase loaded site rendered written output errors].
  rewrite after_errors_best_effort by done.
  reflexivity.
Qed.

Lemma step_Done cfg templates tree b :
  phase b = Done → step cfg templates tree b = b.
Proof. unfold step. by intros ->. Qed.

Lemma run_steps_Done cfg templates tree n :
  phase (run_build cfg templates tree) = Done →
  run_steps (n + 5) cfg templates tree = run_build cfg templates tree.
Proof.
  intros Hdone. induction n as [|n IH]; [done|].
  rewrite Nat.add_succ_l. cbn [run_steps].
  rewrite IH. by apply step_Done.
Qed.

(** C3, as amended: in the default, best-effort mode the errors of
    ContentLoader are recorded per file and never abort the pass: every
    document that fails to load has its error recorded under its path, every
    document that loads is kept, and the pass ends in Done.  For a tree of
    three documents in which one file has a malformed metadata block and the
    two others load, resolve a template, render and have distinct output
    paths, the build yields exactly 2 rendered and written pages, records
    exactly 1 error (MalformedMetadata for that file), ends in Done and
    reports overall-success = false. *)
Theorem loader_errors_recorded_best_effort (cfg : Config)
    (templates : gmap string string) :
  mode cfg = BestEffort →
  (∀ tree,
     let b := run_build cfg templates tree in
     phase b = Done
     ∧ (∀ n, run_steps (n + 5) cfg templates tree = b)
     ∧ (∀ p f k, (p, f) ∈ tree → eligible p = true → load_file p f = inl k →
                 {| err_kind := k; err_path := p |} ∈ errors b)
     ∧ (∀ p f d, (p, f) ∈ tree → eligible p = true → load_file p f = inr d →
                 d ∈ loaded b)
     ∧ (overall_success b = true ↔ errors b = []))
  ∧ (∀ tree p1 p2 p3 f1 f2 f3 d2 d3 n2 n3 h2 h3,
       tree ≡ₚ [(p1, f1); (p2, f2); (p3, f3)] →
       eligible p1 = true → eligible p2 = true → eligible p3 = true →
       load_file p1 f1 = inl MalformedMetadata →
       load_file p2 f2 = inr d2 →
       load_file p3 f3 = inr d3 →
       resolve_template templates cfg d2 = inr n2 →
       resolve_template templates cfg d3 = inr n3 →
       render_markup (body d2) = Some h2 →
       render_markup (body d3) = Some h3 →
       output_path d2 ≠ output_path d3 →
       let b := run_build cfg templates tree in
       phase b = Done
       ∧ length (rendered b) = 2%nat
       ∧ length (written b) = 2%nat
       ∧ page_doc <$> written b ≡ₚ [d2; d3]
       ∧ dom (output b) = {[ output_path d2; output_path d3 ]}
       ∧ errors b = [{| err_kind := MalformedMetadata; err_path := p1 |}]
       ∧ overall_success b = false).
Proof.
  intros Hmode. split.
  - intros tree b. subst b.
    assert (Hdone : phase (run_build cfg templates tree) = Done)
      by (by rewrite run_build_best_effort).
    split; [done|]. split; [intros n; by apply run_steps_Done|].
    rewrite run_build_best_effort by done. cbn [errors loaded phase]. split_and!.
    + intros p f k Hin Hel Hload. rewrite !elem_of_app. left. left. right.
      apply list_elem_of_omap. exists (p, f). split; [done|].
      unfold load_err; simpl. by rewrite Hel, Hload.
    + intros p f d Hin Hel Hload.
      apply list_elem_of_omap. exists (p, f). split; [done|].
      unfold load_ok; simpl. by rewrite Hel, Hload.
    + unfold overall_success. cbn [errors phase].
      rewrite bool_decide_eq_true. split; [by intros [_ ?]|by intros ?].
  - intros tree p1 p2 p3 f1 f2 f3 d2 d3 n2 n3 h2 h3
      Htree He1 He2 He3 Hl1 Hl2 Hl3 Hr2 Hr3 Hm2 Hm3 Hpaths b. subst b.
    rewrite run_build_best_effort by done.
    cbn [phase rendered written output errors].
    set (s := build_site cfg (loaded_documents tree)).
    assert (Hdocs : loaded_documents tree ≡ₚ [d2; d3]).
    { unfold loaded_documents. rewrite Htree. unfold load_ok; simpl.
      by rewrite He1, He2, He3, Hl1, Hl2, Hl3. }
    assert (Hlerr : load_errors tree
                    = [{| err_kind := MalformedMetadata; err_path := p1 |}]).
    { apply Permutation_singleton_r. unfold load_errors. rewrite Htree.
      unfold load_err; simpl. by rewrite He1, He2, He3, Hl1, Hl2, Hl3. }
    assert (Hassets : omap static_asset tree = []).
    { apply Permutation_nil_r. rewrite Htree.
      unfold static_asset; simpl. by rewrite He1, He2, He3. }
    assert (Haerr : omap asset_err tree = []).
    { apply Permutation_nil_r. rewrite Htree.
      unfold asset_err; simpl. by rewrite He1, He2, He3. }
    assert (Hsdocs : documents s ≡ₚ [d2; d3]).
    { unfold s; simpl. by rewrite chronological_Permutation. }
    set (pg2 := {| page_doc := d2;
                   page_html := apply_template (default "" (templates !! n2)) s d2 h2;
                   page_path := output_path d2 |}).
    set (pg3 := {| page_doc := d3;
                   page_html := apply_template (default "" (templates !! n3)) s d3 h3;
                   page_path := output_path d3 |}).
    assert (Hrd2 : render_document templates s d2 = inr pg2).
    { unfold render_document. unfold s at 1; cbn [site_config build_site].
      by rewrite Hr2, Hm2. }
    assert (Hrd3 : render_document templates s d3 = inr pg3).
    { unfold render_document. unfold s at 1; cbn [site_config build_site].
      by rewrite Hr3, Hm3. }
    assert (Hpages : rendered_pages templates s ≡ₚ [pg2; pg3]).
    { unfold rendered_pages. rewrite Hsdocs. unfold render_ok; simpl.
      by rewrite Hrd2, Hrd3. }
    assert (Hrerr : render_errors templates s = []).
    { apply Permutation_nil_r. unfold render_errors. rewrite Hsdocs.
      unfold render_err; simpl. by rewrite Hrd2, Hrd3. }
    assert (Hnd : NoDup (page_path <$> rendered_pages templates s)).
    { rewrite Hpages; simpl. apply NoDup_cons. split.
      - intros Hin%list_elem_of_singleton. by apply Hpaths.
      - apply NoDup_singleton. }
    destruct (write_without_collision _ Hnd) as [Hwritten Hwerr].
    rewrite Hlerr, Hrerr, Haerr, Hassets, Hwritten, Hwerr.
    split; [done|]. split; [by rewrite Hpages|]. split; [by rewrite Hpages|].
    split; [by rewrite Hpages|]. split.
    + unfold output_tree. rewrite Hwritten, list_to_map_nil, (right_id_L ∅ (∪)).
      rewrite dom_list_to_map_L, <- list_fmap_compose.
      apply set_eq. intros x. rewrite elem_of_list_to_set.
      change (fst ∘ (λ pg, (page_path pg, page_html pg))) with page_path.
      rewrite Hpages. cbn [fmap list_fmap].
      rewrite elem_of_union, !elem_of_singleton, !elem_of_cons, elem_of_nil.
      subst pg2 pg3; simpl. tauto.
    + split; [done|]. unfold overall_success. cbn [phase errors].
      by apply bool_decide_eq_false; intros [_ ?].
Qed.

End build_facts.

(** Three documents, the first with an unclosed metadata block, built in the
    default mode. *)
Lemma loader_errors_recorded_best_effort_witness :
  let b := run_build default_config templates1 tree3 in
  phase b = Done
  ∧ length (rendered b) = 2%nat
  ∧ length (written b) = 2%nat
  ∧ errors b = [{| err_kind := MalformedMetadata; err_path := "a.md" |}]
  ∧ overall_success b = false.
Proof.
  pose proof (proj2 (loader_errors_recorded_best_effort
    default_config templates1 eq_refl)
    tree3 "a.md" "b.md" "c.md" _ _ _ _ _ "post.html" "post.html" _ _
    (reflexivity _) eq_refl eq_refl eq_refl eq_refl eq_refl eq_refl
    eq_refl eq_refl eq_refl eq_refl) as Hrun.
  simpl in Hrun. intros b.
  destruct Hrun as (H1 & H2 & H3 & _ & _ & H6 & H7).
  { by vm_compute. }
  done.
Defined.

(** C3 as stated fails in the mode "abort on any error": the same three
    documents, one with an unclosed metadata block, end the pass in Failed
    with no page rendered or written. *)
Lemma malformed_file_aborts_in_abort_mode :
  load_errors tree3 = [{| err_kind := MalformedMetadata; err_path := "a.md" |}]
  ∧ source_path <$> loaded_documents tree3 = ["b.md"; "c.md"]
  ∧ phase (run_build abort_config templates1 tree3) = Failed
  ∧ rendered (run_build abort_config templates1 tree3) = []
  ∧ written (run_build abort_config templates1 tree3) = [].
Proof. by vm_compute. Qed.

End Pipeline.
